(** * The message model of [message.ts] and the error classes of [errors.ts]

    A shallow embedding of the [Msg] interface, of the helpers of the [Msg]
    namespace (construction, narrowing, predicates) and of the class
    hierarchy of [errors.ts], followed by the properties the specification
    states about them. *)

From Stdlib Require Import Ascii String List Bool Arith Lia.
Import ListNotations.
Open Scope string_scope.

Set Implicit Arguments.

(** ** JavaScript values as the message model uses them *)

(** [x != null] is false for a missing key, for [undefined] and for [null]
    alike, so an optional field [f?: T] is an [option T]: [None] is all three.
    [content: string | null] is tested with [=== null], and is an
    [option string] too. *)

(** Truthiness of a string: only the empty string is falsy. *)
Definition truthy (s : string) : bool := negb (s =? "").

(** [x ? ... : ...] and [!!x] for [x : string | undefined]. *)
Definition truthy_opt (x : option string) : bool :=
  match x with
  | Some s => truthy s
  | None => false
  end.

(** [x != null]. *)
Definition not_nullish {A : Type} (x : option A) : bool :=
  match x with
  | Some _ => true
  | None => false
  end.

(** ** errors.ts *)

Module Errors.

(** The built-in [Error] and the three classes the file declares. *)
Inductive ErrorClass : Type :=
| Error
| RetryableError
| ParseError
| TimeoutError.

Definition eqb (c d : ErrorClass) : bool :=
  match c, d with
  | Error, Error
  | RetryableError, RetryableError
  | ParseError, ParseError
  | TimeoutError, TimeoutError => true
  | _, _ => false
  end.

(** The [extends] clause of each class declaration; [Error] is the root
    of the hierarchy modelled here. *)
Definition extends (c : ErrorClass) : option ErrorClass :=
  match c with
  | Error => None
  | RetryableError => Some Error
  | ParseError => Some RetryableError
  | TimeoutError => Some Error
  end.

(** Distance from the root, the measure that bounds a prototype walk. *)
Definition depth (c : ErrorClass) : nat :=
  match c with
  | Error => 0
  | RetryableError => 1
  | ParseError => 2
  | TimeoutError => 1
  end.

(** The prototype chain of class [c], walked for at most [fuel] links
    past [c] itself. *)
Fixpoint chain (fuel : nat) (c : ErrorClass) : list ErrorClass :=
  c :: match fuel with
       | 0 => []
       | S fuel' =>
           match extends c with
           | Some p => chain fuel' p
           | None => []
           end
       end.

Definition prototype_chain (c : ErrorClass) : list ErrorClass :=
  chain (depth c) c.

(** An error object: the class it was constructed with ([new C(message)])
    and its message. *)
Record JsError : Type := new {
  constructor : ErrorClass;
  message : string
}.

(** [e instanceof d]. *)
Definition instanceof (e : JsError) (d : ErrorClass) : bool :=
  existsb (eqb d) (prototype_chain (constructor e)).

(** [c] is [d] or was declared below it. *)
Inductive subclass : ErrorClass -> ErrorClass -> Prop :=
| subclass_refl c : subclass c c
| subclass_step c p d : extends c = Some p -> subclass p d -> subclass c d.

End Errors.

(** ** The [Msg] interface *)

Module Role.

(** [Msg.Role]: the five string literals. *)
Inductive t : Type :=
| system
| user
| assistant
| function
| tool.

(** [===] on two roles. *)
Definition eqb (r s : t) : bool :=
  match r, s with
  | system, system
  | user, user
  | assistant, assistant
  | function, function
  | tool, tool => true
  | _, _ => false
  end.

End Role.

Module Call.

(** [Msg.Call.Function]. *)
Record Function : Type := {
  arguments : string;
  name : string
}.

(** The literal type ['function'] of [Msg.Call.Tool.type]. *)
Inductive FunctionLiteral : Type := function_literal.

(** [Msg.Call.Tool]. *)
Record Tool : Type := {
  id : string;
  type : FunctionLiteral;
  function : Function
}.

End Call.

(** The generic message, without any narrowing applied. *)
Record Msg : Type := {
  content : option string;
  role : Role.t;
  function_call : option Call.Function;
  tool_calls : option (list Call.Tool);
  tool_call_id : option string;
  name : option string
}.

(** ** Effects: exceptions and the console *)

(** How a call ends: [return a] or [throw e]. *)
Inductive Completion (A : Type) : Type :=
| Return (a : A)
| Throw (e : Errors.JsError).

Arguments Return {A} a.
Arguments Throw {A} e.

(** One [console.log(label, msg)]. *)
Inductive ConsoleCall : Type :=
| console_log (label : string) (msg : Msg).

(** A call that may write to the console before it ends. *)
Record Run (A : Type) : Type := {
  console : list ConsoleCall;
  completion : Completion A
}.

Definition quiet {A : Type} (c : Completion A) : Run A :=
  {| console := []; completion := c |}.

(** ** The seven narrowed message types *)

Inductive Variant : Type :=
| System
| User
| Assistant
| FuncCall
| FuncResult
| ToolCall
| ToolResult.

Definition all_variants : list Variant :=
  [System; User; Assistant; FuncCall; FuncResult; ToolCall; ToolResult].

(** The option records of the construction helpers. *)
Module TextOpts.
Record t : Type := {
  name : option string;
  cleanContent : option bool
}.
End TextOpts.

(** The [opts] of [funcCall], [toolCall] and [toolResult]. The declared
    type [{ name?: string }] is open: an object with further keys is
    assignable to it (a [Msg], for one), and [...opts] copies every own key.
    The keys kept here are those of a [Msg], at the types [Msg] gives them;
    a key of any other name is read by no function of the message model. *)
Module Opts.
Record t : Type := {
  name : option string;
  role : option Role.t;
  content : option (option string);
  function_call : option Call.Function;
  tool_calls : option (list Call.Tool);
  tool_call_id : option string
}.

(** [{}]. *)
Definition empty : t :=
  {| name := None;
     role := None;
     content := None;
     function_call := None;
     tool_calls := None;
     tool_call_id := None |}.

(** An object with the declared key only. *)
Definition named (n : option string) : t :=
  {| name := n;
     role := None;
     content := None;
     function_call := None;
     tool_calls := None;
     tool_call_id := None |}.
End Opts.

(** ** Utility functions for creating and checking message types *)

Module Msg.

(** [opts ?? {}] followed by the destructuring
    [{ name, cleanContent = true }]: the default applies to a missing
    or [undefined] property. *)
Definition text_name (opts : option TextOpts.t) : option string :=
  match opts with
  | Some o => TextOpts.name o
  | None => None
  end.

Definition text_cleanContent (opts : option TextOpts.t) : bool :=
  match opts with
  | Some o =>
      match TextOpts.cleanContent o with
      | Some b => b
      | None => true
      end
  | None => true
  end.

(** [...(name ? { name } : {})]: a falsy name leaves no [name] key. *)
Definition spread_truthy_name (name : option string) : option string :=
  if truthy_opt name then name else None.

(** [...opts] for [opts?: { name?: string }]: spreading [undefined] adds
    nothing, spreading an object copies all its keys. The properties
    written after [...opts] in an object literal replace the copied ones. *)
Definition spread_opts (opts : option Opts.t) : Opts.t :=
  match opts with
  | Some o => o
  | None => Opts.empty
  end.

Section Helpers.

(** [utils.ts] is imported but is not part of the sources: its two
    functions are parameters of the helpers below. *)
Variable cleanStringForModel : string -> string.
Variable Jsonifiable : Type.
Variable stringifyForModel : Jsonifiable -> string.

(** Create a system message. *)
Definition system (content : string) (opts : option TextOpts.t) : Msg :=
  let name := text_name opts in
  let cleanContent := text_cleanContent opts in
  {| role := Role.system;
     content := Some (if cleanContent then cleanStringForModel content
                      else content);
     name := spread_truthy_name name;
     function_call := None;
     tool_calls := None;
     tool_call_id := None |}.

(** Create a user message. *)
Definition user (content : string) (opts : option TextOpts.t) : Msg :=
  let name := text_name opts in
  let cleanContent := text_cleanContent opts in
  {| role := Role.user;
     content := Some (if cleanContent then cleanStringForModel content
                      else content);
     name := spread_truthy_name name;
     function_call := None;
     tool_calls := None;
     tool_call_id := None |}.

(** Create an assistant message. *)
Definition assistant (content : string) (opts : option TextOpts.t) : Msg :=
  let name := text_name opts in
  let cleanContent := text_cleanContent opts in
  {| role := Role.assistant;
     content := Some (if cleanContent then cleanStringForModel content
                      else content);
     name := spread_truthy_name name;
     function_call := None;
     tool_calls := None;
     tool_call_id := None |}.

(** Create a function call message with arguments. *)
Definition funcCall (function_call : Call.Function)
    (opts : option Opts.t) : Msg :=
  {| name := Opts.name (spread_opts opts);
     tool_calls := Opts.tool_calls (spread_opts opts);
     tool_call_id := Opts.tool_call_id (spread_opts opts);
     role := Role.assistant;
     content := None;
     function_call := Some function_call |}.

(** Create a function result message. *)
Definition funcResult (content : Jsonifiable) (name : string) : Msg :=
  let contentString := stringifyForModel content in
  {| role := Role.function;
     content := Some contentString;
     name := Some name;
     function_call := None;
     tool_calls := None;
     tool_call_id := None |}.

(** Create a tool call message with arguments. *)
Definition toolCall (tool_calls : list Call.Tool)
    (opts : option Opts.t) : Msg :=
  {| name := Opts.name (spread_opts opts);
     function_call := Opts.function_call (spread_opts opts);
     tool_call_id := Opts.tool_call_id (spread_opts opts);
     role := Role.assistant;
     content := None;
     tool_calls := Some tool_calls |}.

(** Create a tool call result message. *)
Definition toolResult (content : Jsonifiable) (tool_call_id : string)
    (opts : option Opts.t) : Msg :=
  let contentString := stringifyForModel content in
  {| name := Opts.name (spread_opts opts);
     function_call := Opts.function_call (spread_opts opts);
     tool_calls := Opts.tool_calls (spread_opts opts);
     role := Role.tool;
     tool_call_id := Some tool_call_id;
     content := Some contentString |}.

(** Narrow a message received from the API. The three tests are tried
    in the order of the [if ... else if ...] chain. *)
Definition narrowResponseMessage (msg : Msg) : Run Msg :=
  match content msg, tool_calls msg with
  | None, Some tcs => quiet (Return (toolCall tcs None))
  | _, _ =>
      match content msg, function_call msg with
      | None, Some fc => quiet (Return (funcCall fc None))
      | _, _ =>
          match content msg with
          | Some c => quiet (Return (assistant c None))
          | None =>
              {| console := [console_log "Invalid message" msg];
                 completion :=
                   Throw (Errors.new Errors.Error "Invalid message") |}
          end
      end
  end.

End Helpers.

(** Check if a message is a system message. *)
Definition isSystem (message : Msg) : bool :=
  Role.eqb (role message) Role.system.

(** Check if a message is a user message. *)
Definition isUser (message : Msg) : bool :=
  Role.eqb (role message) Role.user.

(** Check if a message is an assistant message. *)
Definition isAssistant (message : Msg) : bool :=
  Role.eqb (role message) Role.assistant && not_nullish (content message).

(** Check if a message is a function call message with arguments. *)
Definition isFuncCall (message : Msg) : bool :=
  Role.eqb (role message) Role.assistant
  && not_nullish (function_call message).

(** Check if a message is a function result message. *)
Definition isFuncResult (message : Msg) : bool :=
  Role.eqb (role message) Role.function && not_nullish (name message).

(** Check if a message is a tool calls message. *)
Definition isToolCall (message : Msg) : bool :=
  Role.eqb (role message) Role.assistant
  && not_nullish (tool_calls message).

(** Check if a message is a tool call result message. *)
Definition isToolResult (message : Msg) : bool :=
  Role.eqb (role message) Role.tool && truthy_opt (tool_call_id message).

(** Narrow a message to a specific type: the message itself comes back,
    or the call throws. *)
Definition narrow (message : Msg) : Completion Msg :=
  if isSystem message then Return message
  else if isUser message then Return message
  else if isAssistant message then Return message
  else if isFuncCall message then Return message
  else if isFuncResult message then Return message
  else if isToolCall message then Return message
  else if isToolResult message then Return message
  else Throw (Errors.new Errors.Error "Invalid message type").

End Msg.

(** ** Vocabulary of the specification *)

(** Membership in a narrowed type, as the type guards decide it. *)
Definition is_variant (v : Variant) (m : Msg) : bool :=
  match v with
  | System => Msg.isSystem m
  | User => Msg.isUser m
  | Assistant => Msg.isAssistant m
  | FuncCall => Msg.isFuncCall m
  | FuncResult => Msg.isFuncResult m
  | ToolCall => Msg.isToolCall m
  | ToolResult => Msg.isToolResult m
  end.

(** The variants whose predicate answers [true] on [m]. *)
Definition variants_of (m : Msg) : list Variant :=
  filter (fun v => is_variant v m) all_variants.

Definition has_function_call (m : Msg) : bool := not_nullish (function_call m).
Definition has_tool_calls (m : Msg) : bool := not_nullish (tool_calls m).

(** The message carries a call request. *)
Definition carries_call (m : Msg) : bool :=
  has_function_call m || has_tool_calls m.

(** Exactly one of [function_call], [tool_calls] is set. *)
Definition exactly_one_call (m : Msg) : bool :=
  xorb (has_function_call m) (has_tool_calls m).

(** The invariant of the data model: [content] is null if and only if the
    message carries a call request, and a call message has exactly one of
    the two call fields. *)
Definition content_invariant (m : Msg) : Prop :=
  (content m = None <-> carries_call m = true)
  /\ (carries_call m = true -> exactly_one_call m = true).

(** Well-formedness with field presence only: [content] is null if and
    only if exactly one call field is there, a function message has a
    [name], a tool message has a [tool_call_id]. *)
Record well_formed (m : Msg) : Prop := {
  wf_content : content m = None <-> exactly_one_call m = true;
  wf_name : role m = Role.function -> name m <> None;
  wf_tool_call_id : role m = Role.tool -> tool_call_id m <> None
}.

(** Well-formedness as the guards need it: the invariant of the data model,
    and a [tool_call_id] that is a non-empty string. *)
Record well_formed_nonempty_id (m : Msg) : Prop := {
  wfn_content : content_invariant m;
  wfn_name : role m = Role.function -> name m <> None;
  wfn_tool_call_id : role m = Role.tool -> truthy_opt (tool_call_id m) = true
}.

(** The strict well-formedness as a test that runs. *)
Definition content_invariantb (m : Msg) : bool :=
  Bool.eqb (negb (not_nullish (content m))) (carries_call m)
  && implb (carries_call m) (exactly_one_call m).

Definition well_formed_nonempty_idb (m : Msg) : bool :=
  content_invariantb m
  && implb (Role.eqb (role m) Role.function) (not_nullish (name m))
  && implb (Role.eqb (role m) Role.tool) (truthy_opt (tool_call_id m)).

(** An error of a class of its own (not the generic [Error]) that is not
    retryable: what a dedicated protocol error would be. *)
Definition dedicated_fatal_error (e : Errors.JsError) : Prop :=
  Errors.constructor e <> Errors.Error
  /\ Errors.instanceof e Errors.RetryableError = false.

Section Built.

Variable cleanStringForModel : string -> string.
Variable Jsonifiable : Type.
Variable stringifyForModel : Jsonifiable -> string.

(** The messages the seven construction helpers can build. *)
Inductive Constructed : Msg -> Prop :=
| built_system s o : Constructed (Msg.system cleanStringForModel s o)
| built_user s o : Constructed (Msg.user cleanStringForModel s o)
| built_assistant s o : Constructed (Msg.assistant cleanStringForModel s o)
| built_funcCall fc o : Constructed (Msg.funcCall fc o)
| built_funcResult j n : Constructed (Msg.funcResult stringifyForModel j n)
| built_toolCall tcs o : Constructed (Msg.toolCall tcs o)
| built_toolResult j i o :
    Constructed (Msg.toolResult stringifyForModel j i o).

End Built.

(** ** Sample data *)

(** A cleaner to run the helpers with: it removes leading spaces. *)
Fixpoint trim_leading (s : string) : string :=
  match s with
  | String " "%char rest => trim_leading rest
  | _ => s
  end.

Definition get_weather : Call.Function :=
  {| Call.name := "get_weather"; Call.arguments := "{}" |}.

Definition call_1 : Call.Tool :=
  {| Call.id := "call_1";
     Call.type := Call.function_literal;
     Call.function := get_weather |}.

(** A raw message with every optional field missing. *)
Definition bare (r : Role.t) (c : option string) : Msg :=
  {| content := c;
     role := r;
     function_call := None;
     tool_calls := None;
     tool_call_id := None;
     name := None |}.

(** A tool message whose [tool_call_id] is the empty string. *)
Definition tool_result_empty_id : Msg :=
  {| content := Some "72F";
     role := Role.tool;
     function_call := None;
     tool_calls := None;
     tool_call_id := Some "";
     name := None |}.

(** An assistant message with text and both call fields. *)
Definition assistant_with_both_calls : Msg :=
  {| content := Some "hi";
     role := Role.assistant;
     function_call := Some get_weather;
     tool_calls := Some [call_1];
     tool_call_id := None;
     name := None |}.

(** A null-content response with both call fields and a name. *)
Definition response_with_both_calls : Msg :=
  {| content := None;
     role := Role.assistant;
     function_call := Some get_weather;
     tool_calls := Some [call_1];
     tool_call_id := None;
     name := Some "bot" |}.

(** A cleaner that is not idempotent: it removes one leading space. *)
Definition drop_leading_space (s : string) : string :=
  match s with
  | String " "%char rest => rest
  | _ => s
  end.

(** Options that bring [tool_calls] beside the declared [name], as a
    [Msg] passed for the options would. *)
Definition opts_with_tool_calls : Opts.t :=
  {| Opts.name := Some "bot";
     Opts.role := None;
     Opts.content := None;
     Opts.function_call := None;
     Opts.tool_calls := Some [call_1];
     Opts.tool_call_id := None |}.

(** Options that bring [function_call] beside the declared [name]. *)
Definition opts_with_function_call : Opts.t :=
  {| Opts.name := Some "bot";
     Opts.role := None;
     Opts.content := None;
     Opts.function_call := Some get_weather;
     Opts.tool_calls := None;
     Opts.tool_call_id := None |}.

(** A null-content response with a legacy function call only. *)
Definition response_with_function_call : Msg :=
  {| content := None;
     role := Role.assistant;
     function_call := Some get_weather;
     tool_calls := None;
     tool_call_id := None;
     name := Some "bot" |}.

(** ** services/exa-client.ts *)

(** The values [assert] is called with. *)
Inductive JsValue : Type :=
| js_undefined
| js_string (s : string)
| js_number (n : nat).

Definition truthy_value (v : JsValue) : bool :=
  match v with
  | js_undefined => false
  | js_string s => truthy s
  | js_number n => negb (n =? 0)%nat
  end.

Definition of_optional_string (x : option string) : JsValue :=
  match x with
  | Some s => js_string s
  | None => js_undefined
  end.

(** The types inferred from the schemas of the [exa] namespace. A
    [z.number()] is a [number], a type left open here; [.optional()] is an
    [option]; the fields that [.extend] adds to a base schema sit beside a
    [base] field. *)
Module exa.

(** [z.union([Schema, z.literal(true)])]. *)
Inductive OrTrue (A : Type) : Type :=
| literal_true
| options (a : A).

Arguments literal_true {A}.

Module TextContentsOptions.
Record t (number : Type) : Type := {
  maxCharacters : option number;
  includeHtmlTags : option bool
}.
End TextContentsOptions.

Module HighlightsContentsOptions.
Record t (number : Type) : Type := {
  query : option string;
  numSentences : option number;
  highlightsPerUrl : option number
}.
End HighlightsContentsOptions.

Module ContentsOptions.
Record t (number : Type) : Type := {
  text : option (OrTrue (TextContentsOptions.t number));
  highlights : option (OrTrue (HighlightsContentsOptions.t number))
}.
End ContentsOptions.

Module BaseSearchOptions.
Record t (number : Type) : Type := {
  numResults : option number;
  includeDomains : option (list string);
  excludeDomains : option (list string);
  startCrawlDate : option string;
  endCrawlDate : option string;
  startPublishedDate : option string;
  endPublishedDate : option string;
  category : option string;
  contents : option (ContentsOptions.t number)
}.
End BaseSearchOptions.

(** [z.enum(['keyword', 'neural', 'magic'])]. *)
Inductive SearchType : Type :=
| keyword
| neural
| magic.

Module RegularSearchOptions.
Record t (number : Type) : Type := {
  base : BaseSearchOptions.t number;
  query : string;
  useAutoprompt : option bool;
  type : option SearchType
}.
End RegularSearchOptions.

Module FindSimilarOptions.
Record t (number : Type) : Type := {
  base : BaseSearchOptions.t number;
  url : string;
  excludeSourceDomain : option bool
}.
End FindSimilarOptions.

(** What a caller can pass as [ids]: the declared array of strings, or the
    single string the [Array.isArray] test of [getContents] allows for. *)
Inductive Ids : Type :=
| single (id : string)
| array (ids : list string).

Module GetContentsOptions.
Record t (number : Type) : Type := {
  base : ContentsOptions.t number;
  ids : Ids
}.
End GetContentsOptions.

End exa.

Module Ky.

(** The options [ExaClient] passes to [ky.extend]. *)
Record Options : Type := {
  prefixUrl : string;
  headers : list (string * option string)
}.

End Ky.

Module ExaClient.

(** The argument of the constructor. *)
Module Args.
Record t (KyInstance : Type) : Type := {
  apiKey : option string;
  apiBaseUrl : option string;
  ky : option KyInstance
}.
End Args.

(** The fields of an [ExaClient]. [apiKey] is declared a [string]; what is
    stored is the value [assert] was called with. *)
Record t (KyInstance : Type) : Type := {
  apiKey : option string;
  apiBaseUrl : string;
  ky : KyInstance
}.

(** The [json] option of a [ky.post]. *)
Inductive Json (number : Type) : Type :=
| search_json (opts : exa.RegularSearchOptions.t number)
| findSimilar_json (opts : exa.FindSimilarOptions.t number)
| contents_json (opts : exa.ContentsOptions.t number) (ids : list string).

(** One [instance.post(input, { json })]; the methods return the promise of
    its JSON body. *)
Record Post (number KyInstance : Type) : Type := {
  instance : KyInstance;
  input : string;
  json : Json number
}.

Section Methods.

Variable number : Type.

(** [ky] is an external package, and [utils.ts] is not part of the sources:
    [getEnv] and [assert] are parameters. *)
Variable KyInstance : Type.
Variable defaultKy : KyInstance.
Variable extend : KyInstance -> Ky.Options -> KyInstance.
Variable getEnv : string -> option string.
Variable assert : JsValue -> string -> Completion unit.

(** The text of the constructor's assertion; it has double quotes around
    [apiKey] and [EXA_API_KEY]. *)
Definition missing_apiKey : string :=
  let q := String (ascii_of_nat 34) EmptyString in
  "ExaClient missing required " ++ q ++ "apiKey" ++ q
  ++ " (defaults to " ++ q ++ "EXA_API_KEY" ++ q ++ ")".

(** An object with the one key [query]. *)
Definition query_only (query : string) : exa.RegularSearchOptions.t number :=
  {| exa.RegularSearchOptions.base :=
       {| exa.BaseSearchOptions.numResults := None;
          exa.BaseSearchOptions.includeDomains := None;
          exa.BaseSearchOptions.excludeDomains := None;
          exa.BaseSearchOptions.startCrawlDate := None;
          exa.BaseSearchOptions.endCrawlDate := None;
          exa.BaseSearchOptions.startPublishedDate := None;
          exa.BaseSearchOptions.endPublishedDate := None;
          exa.BaseSearchOptions.category := None;
          exa.BaseSearchOptions.contents := None |};
     exa.RegularSearchOptions.query := query;
     exa.RegularSearchOptions.useAutoprompt := None;
     exa.RegularSearchOptions.type := None |}.

(** The [apiKey], [apiBaseUrl] and [ky] properties of the argument. *)
Definition given_apiKey (args : option (Args.t KyInstance))
  : option string :=
  match args with
  | Some a => Args.apiKey a
  | None => None
  end.

Definition given_apiBaseUrl (args : option (Args.t KyInstance))
  : option string :=
  match args with
  | Some a => Args.apiBaseUrl a
  | None => None
  end.

Definition given_ky (args : option (Args.t KyInstance))
  : option KyInstance :=
  match args with
  | Some a => Args.ky a
  | None => None
  end.

(** The destructuring defaults of the constructor: a default is used when
    the argument, or its property, is [undefined]. *)
Definition arg_apiKey (args : option (Args.t KyInstance)) : option string :=
  match args with
  | Some {| Args.apiKey := Some k |} => Some k
  | _ => getEnv "EXA_API_KEY"
  end.

Definition arg_apiBaseUrl (args : option (Args.t KyInstance)) : string :=
  match args with
  | Some {| Args.apiBaseUrl := Some u |} => u
  | _ =>
      match getEnv "EXA_API_BASE_URL" with
      | Some u => u
      | None => "https://api.exa.ai"
      end
  end.

Definition arg_ky (args : option (Args.t KyInstance)) : KyInstance :=
  match args with
  | Some {| Args.ky := Some k |} => k
  | _ => defaultKy
  end.

(** [new ExaClient(args)]. The constructor of the base class comes from
    [fns.ts], which is not part of the sources, and sets none of the three
    fields. *)
Definition constructor (args : option (Args.t KyInstance))
  : Completion (t KyInstance) :=
  let apiKey := arg_apiKey args in
  let apiBaseUrl := arg_apiBaseUrl args in
  let ky := arg_ky args in
  match assert (of_optional_string apiKey) missing_apiKey with
  | Throw e => Throw e
  | Return _ =>
      Return
        {| apiKey := apiKey;
           apiBaseUrl := apiBaseUrl;
           ky := extend ky
                   {| Ky.prefixUrl := apiBaseUrl;
                      Ky.headers := [("x-api-key", apiKey)] |} |}
  end.

(** Performs an Exa search for the given query. *)
Definition search (this : t KyInstance)
    (queryOrOpts : string + exa.RegularSearchOptions.t number)
  : Post number KyInstance :=
  let json :=
    match queryOrOpts with
    | inl query => query_only query
    | inr opts => opts
    end in
  {| instance := ky this; input := "search"; json := search_json json |}.

(** Finds similar links to the provided URL. *)
Definition findSimilar (this : t KyInstance)
    (opts : exa.FindSimilarOptions.t number)
  : Post number KyInstance :=
  {| instance := ky this;
     input := "findSimilar";
     json := findSimilar_json opts |}.

(** Retrieves contents of documents based on a list of Exa document IDs.
    A failed [assert] in an [async] method rejects the promise it
    returns: [Throw]. *)
Definition getContents (this : t KyInstance)
    (args : exa.GetContentsOptions.t number)
  : Completion (Post number KyInstance) :=
  let ids := exa.GetContentsOptions.ids args in
  let opts := exa.GetContentsOptions.base args in
  let documentIDs :=
    match ids with
    | exa.array ids => ids
    | exa.single id => [id]
    end in
  match
    assert (js_number (length documentIDs))
      "Must provide at least one document ID"
  with
  | Throw e => Throw e
  | Return _ =>
      Return
        {| instance := ky this;
           input := "contents";
           json := contents_json opts documentIDs |}
  end.

End Methods.

End ExaClient.

(** ** Vocabulary for the guards and the error kinds *)

(** The messages some guard accepts, read off the fields. *)
Definition narrow_domain (m : Msg) : Prop :=
  match role m with
  | Role.system | Role.user => True
  | Role.assistant =>
      content m <> None \/ function_call m <> None \/ tool_calls m <> None
  | Role.function => name m <> None
  | Role.tool => exists id, tool_call_id m = Some id /\ id <> ""
  end.

(** How many of [content], [function_call], [tool_calls] are set. *)
Definition payload_count (m : Msg) : nat :=
  Nat.b2n (not_nullish (content m))
  + Nat.b2n (has_function_call m)
  + Nat.b2n (has_tool_calls m).

(** The three kinds of error a handler can tell apart with [instanceof]. *)
Inductive ErrorKind : Type :=
| generic
| retryable
| timed_out.

Definition kind_of (e : Errors.JsError) : ErrorKind :=
  if Errors.instanceof e Errors.RetryableError then retryable
  else if Errors.instanceof e Errors.TimeoutError then timed_out
  else generic.

(** ** Sample data for the Exa client *)

(** An [assert] to run the client with: on a falsy value it throws an
    [Error] with the given text. *)
Definition sample_assert (value : JsValue) (message : string)
  : Completion unit :=
  if truthy_value value then Return tt
  else Throw (Errors.new Errors.Error message).

(** An environment with an API key and no base URL. *)
Definition sample_getEnv (name : string) : option string :=
  if name =? "EXA_API_KEY" then Some "secret" else None.

(** A [ky] instance as the list of the options it was extended with, the
    latest first. *)
Definition sample_ky : Type := list Ky.Options.

Definition sample_extend (instance : sample_ky) (options : Ky.Options)
  : sample_ky :=
  options :: instance.

(** The client the constructor builds from no argument in
    [sample_getEnv]. *)
Definition sample_client : ExaClient.t sample_ky :=
  {| ExaClient.apiKey := Some "secret";
     ExaClient.apiBaseUrl := "https://api.exa.ai";
     ExaClient.ky :=
       [ {| Ky.prefixUrl := "https://api.exa.ai";
            Ky.headers := [("x-api-key", Some "secret")] |} ] |}.

(** A request for the contents of one document, given as a single id. *)
Definition one_document : exa.GetContentsOptions.t nat :=
  {| exa.GetContentsOptions.base :=
       {| exa.ContentsOptions.text := Some exa.literal_true;
          exa.ContentsOptions.highlights := None |};
     exa.GetContentsOptions.ids := exa.single "doc-1" |}.

(** ** Theorems: the error classes *)

Module ErrorsFacts.
Import Errors.

Lemma eqb_eq c d : eqb c d = true <-> c = d.
Proof. destruct c, d; simpl; split; congruence. Qed.

(** Each [extends] link goes one step towards the root, so the fuel of
    [prototype_chain] never cuts a walk short. *)
Lemma depth_extends c p : extends c = Some p -> depth c = S (depth p).
Proof. destruct c; simpl; intros H; inversion H; reflexivity. Qed.

Lemma chain_reaches_root c : last (prototype_chain c) c = Error.
Proof. destruct c; reflexivity. Qed.

(** More fuel than [depth] finds nothing new. *)
Lemma chain_fuel_enough c k : chain (depth c + k) c = prototype_chain c.
Proof. destruct c; simpl; destruct k; reflexivity. Qed.

(** [instanceof] computes the reflexive-transitive closure of [extends]. *)
Lemma instanceof_subclass e d :
  instanceof e d = true <-> subclass (constructor e) d.
Proof.
  unfold instanceof. destruct e as [c msg]; simpl. split.
  - destruct c, d; simpl; intros H; try discriminate H;
      repeat (first [ apply subclass_refl
                    | eapply subclass_step; [ reflexivity | ] ]).
  - intros H. induction H as [c | c p d He Hs IH].
    + destruct c; reflexivity.
    + destruct c; simpl in He; inversion He; subst p;
        destruct d; simpl in *; try reflexivity; try discriminate IH.
Qed.

(** C7. [ParseError] is declared as a subclass of [RetryableError], so
    every error that is a [ParseError] is a [RetryableError]; an error
    constructed as a [TimeoutError] is not a [RetryableError]:
    [TimeoutError] extends [Error] directly. *)
Theorem ParseError_retryable_TimeoutError_not :
  extends ParseError = Some RetryableError
  /\ (forall e, instanceof e ParseError = true ->
                instanceof e RetryableError = true)
  /\ extends TimeoutError = Some Error
  /\ (forall msg, instanceof (new TimeoutError msg) RetryableError = false)
  /\ ~ subclass TimeoutError RetryableError.
Proof.
  repeat split.
  - intros [c msg]. destruct c; simpl; intros H;
      first [ discriminate H | reflexivity ].
  - intros H. apply (instanceof_subclass (new TimeoutError "")) in H.
    discriminate H.
Qed.

Lemma ParseError_retryable_witness :
  instanceof (new ParseError "Unexpected token") RetryableError = true.
Proof.
  apply (proj1 (proj2 ParseError_retryable_TimeoutError_not)).
  reflexivity.
Defined.

End ErrorsFacts.

(** ** Theorems: the message model *)

Section GuardFacts.

(** [narrow] returns its argument exactly when some guard accepts it. *)
Lemma narrow_by_guards (m : Msg) :
  Msg.narrow m =
    if existsb (fun v => is_variant v m) all_variants
    then Return m
    else Throw (Errors.new Errors.Error "Invalid message type").
Proof.
  unfold Msg.narrow; simpl.
  destruct (Msg.isSystem m); [ reflexivity | ].
  destruct (Msg.isUser m); [ reflexivity | ].
  destruct (Msg.isAssistant m); [ reflexivity | ].
  destruct (Msg.isFuncCall m); [ reflexivity | ].
  destruct (Msg.isFuncResult m); [ reflexivity | ].
  destruct (Msg.isToolCall m); [ reflexivity | ].
  destruct (Msg.isToolResult m); reflexivity.
Qed.

Lemma narrow_accepts (m : Msg) (v : Variant) :
  In v (variants_of m) -> Msg.narrow m = Return m.
Proof.
  intros Hv. apply filter_In in Hv. destruct Hv as [Hin Hv].
  rewrite narrow_by_guards.
  assert (H : existsb (fun v => is_variant v m) all_variants = true).
  { apply existsb_exists. exists v. split; assumption. }
  rewrite H. reflexivity.
Qed.

(** The strict well-formedness implies the one that asks for presence
    only. *)
Lemma well_formed_nonempty_id_well_formed (m : Msg) :
  well_formed_nonempty_id m -> well_formed m.
Proof.
  intros [[Hiff Hone] Hn Ht]. split.
  - split.
    + intros Hc. apply Hone, Hiff, Hc.
    + intros Hx. apply Hiff. unfold exactly_one_call, carries_call in *.
      destruct (has_function_call m), (has_tool_calls m);
        simpl in *; congruence.
  - exact Hn.
  - intros Hr. specialize (Ht Hr).
    destruct (tool_call_id m); simpl in Ht; congruence.
Qed.

(** The boolean test decides the strict well-formedness. *)
Lemma well_formed_nonempty_idb_spec (m : Msg) :
  well_formed_nonempty_idb m = true <-> well_formed_nonempty_id m.
Proof.
  destruct m as [c r fc tc id n].
  unfold well_formed_nonempty_idb, content_invariantb, carries_call,
    exactly_one_call, has_function_call, has_tool_calls.
  split.
  - intros H. apply andb_prop in H. destruct H as [H Ht].
    apply andb_prop in H. destruct H as [Hi Hn].
    apply andb_prop in Hi. destruct Hi as [Hiff Hone].
    simpl in *. split; [ split | | ]; simpl;
      unfold carries_call, exactly_one_call, has_function_call,
        has_tool_calls; simpl.
    + destruct c, fc, tc; simpl in *; split; congruence.
    + destruct fc, tc; simpl in *; congruence.
    + intros Hr Hnone. subst r n. discriminate Hn.
    + intros Hr. subst r. exact Ht.
  - intros [[Hiff Hone] Hn Ht].
    unfold carries_call, exactly_one_call, has_function_call,
      has_tool_calls in *. simpl in *.
    repeat (apply andb_true_intro; split).
    + destruct c, fc, tc; simpl in *; try reflexivity;
        first [ discriminate (proj1 Hiff eq_refl)
              | discriminate (proj2 Hiff eq_refl) ].
    + destruct fc, tc; simpl in *; try reflexivity.
      discriminate (Hone eq_refl).
    + destruct r; simpl; try reflexivity.
      destruct n; [ reflexivity | ]. exfalso. apply Hn; reflexivity.
    + destruct r; simpl; try reflexivity. apply Ht. reflexivity.
Qed.

Ltac absurd_invariant Hiff Hone :=
  exfalso;
  first [ discriminate (proj1 Hiff eq_refl)
        | discriminate (proj2 Hiff eq_refl)
        | discriminate (Hone eq_refl) ].

(** On a message that satisfies the strict well-formedness, exactly one
    guard answers [true]. *)
Lemma guards_exclusive (m : Msg) :
  well_formed_nonempty_id m -> exists v, variants_of m = [v].
Proof.
  intros [[Hiff Hone] Hn Ht].
  destruct m as [c r fc tc id n].
  unfold carries_call, exactly_one_call, has_function_call,
    has_tool_calls in *.
  unfold variants_of, is_variant, Msg.isSystem, Msg.isUser,
    Msg.isAssistant, Msg.isFuncCall, Msg.isFuncResult, Msg.isToolCall,
    Msg.isToolResult.
  simpl in *.
  destruct r; simpl.
  - eexists; reflexivity.
  - eexists; reflexivity.
  - destruct c, fc, tc; simpl in *;
      first [ absurd_invariant Hiff Hone | eexists; reflexivity ].
  - destruct n; simpl; [ eexists; reflexivity | ].
    exfalso. apply Hn; reflexivity.
  - rewrite (Ht eq_refl). eexists; reflexivity.
Qed.

End GuardFacts.

Section MsgFacts.

Variable cleanStringForModel : string -> string.
Variable Jsonifiable : Type.
Variable stringifyForModel : Jsonifiable -> string.

Local Abbreviation narrowResponseMessage :=
  (Msg.narrowResponseMessage cleanStringForModel).
Local Abbreviation system := (Msg.system cleanStringForModel).
Local Abbreviation user := (Msg.user cleanStringForModel).
Local Abbreviation assistant := (Msg.assistant cleanStringForModel).

(** What the guards say about the three messages [narrowResponseMessage]
    can build. *)
Lemma variants_of_toolCall tcs :
  variants_of (Msg.toolCall tcs None) = [ToolCall].
Proof. reflexivity. Qed.

Lemma variants_of_funcCall fc :
  variants_of (Msg.funcCall fc None) = [FuncCall].
Proof. reflexivity. Qed.

Lemma variants_of_assistant s o :
  variants_of (assistant s o) = [Assistant].
Proof. reflexivity. Qed.

(** C1. [narrowResponseMessage] tries its tests in order and the first
    that holds decides: null content with [tool_calls] gives the ToolCall
    message (whatever [function_call] is); otherwise null content with
    [function_call] gives the FuncCall message; otherwise non-null content
    gives the Assistant message. Each result is accepted by the guard of
    its variant and by no other. *)
Theorem narrowResponseMessage_first_match (msg : Msg) :
  (forall tcs,
      content msg = None -> tool_calls msg = Some tcs ->
      narrowResponseMessage msg = quiet (Return (Msg.toolCall tcs None))
      /\ variants_of (Msg.toolCall tcs None) = [ToolCall])
  /\ (forall fc,
      content msg = None -> tool_calls msg = None ->
      function_call msg = Some fc ->
      narrowResponseMessage msg = quiet (Return (Msg.funcCall fc None))
      /\ variants_of (Msg.funcCall fc None) = [FuncCall])
  /\ (forall c,
      content msg = Some c ->
      narrowResponseMessage msg = quiet (Return (assistant c None))
      /\ variants_of (assistant c None) = [Assistant]).
Proof.
  unfold Msg.narrowResponseMessage.
  split; [ | split ].
  - intros tcs Hc Ht. rewrite Hc, Ht. split; reflexivity.
  - intros fc Hc Ht Hf. rewrite Hc, Ht, Hf. split; reflexivity.
  - intros c Hc. rewrite Hc.
    destruct (tool_calls msg), (function_call msg); split; reflexivity.
Qed.

(** C2, as the code has it. A message with null content and neither call
    field makes [narrowResponseMessage] log the message and throw a plain
    [Error] with the text "Invalid message". The error is not a
    [RetryableError]; it is of the generic class, not of a class of its
    own. The call never returns, so no Assistant message (or any other)
    comes out of it. *)
Theorem narrowResponseMessage_invalid (msg : Msg) :
  content msg = None ->
  function_call msg = None ->
  tool_calls msg = None ->
  let e := Errors.new Errors.Error "Invalid message" in
  narrowResponseMessage msg =
    {| console := [console_log "Invalid message" msg];
       completion := Throw e |}
  /\ Errors.instanceof e Errors.RetryableError = false
  /\ Errors.constructor e = Errors.Error
  /\ (forall r, completion (narrowResponseMessage msg) <> Return r).
Proof.
  intros Hc Hf Ht e. unfold Msg.narrowResponseMessage.
  rewrite Hc, Hf, Ht. simpl.
  repeat split. intros r H. discriminate H.
Qed.

(** C3, on the strict well-formedness. If [content] is null exactly when
    the message carries a call field, a call message has one call field
    only, a function message has a [name] and a tool message has a
    non-empty [tool_call_id], then exactly one of the seven guards
    [isSystem], [isUser], [isAssistant], [isFuncCall], [isFuncResult],
    [isToolCall], [isToolResult] answers [true]. The guards are total
    functions to [bool] and touch no state. *)
Theorem guards_mutually_exclusive (m : Msg) :
  well_formed_nonempty_id m ->
  exists v, variants_of m = [v]
            /\ is_variant v m = true
            /\ forall w, is_variant w m = true -> w = v.
Proof.
  intros Hwf. destruct (guards_exclusive Hwf) as [v Hv].
  exists v. split; [ exact Hv | ].
  assert (Hin : forall w, is_variant w m = true <-> In w [v]).
  { intros w. rewrite <- Hv. unfold variants_of. rewrite filter_In.
    split; [ intros H; split; [ destruct w; simpl; tauto | exact H ]
           | intros [_ H]; exact H ]. }
  split.
  - apply Hin. left. reflexivity.
  - intros w Hw. apply Hin in Hw. destruct Hw as [Hw | []].
    symmetry. exact Hw.
Qed.

(** C4, on the strict well-formedness. [narrow] returns on every such
    message, it returns the message itself, and the guards put that
    message in exactly one of the seven variants. *)
Theorem narrow_total (m : Msg) :
  well_formed_nonempty_id m ->
  Msg.narrow m = Return m
  /\ exists v, variants_of m = [v].
Proof.
  intros Hwf. destruct (guards_exclusive Hwf) as [v Hv]. split.
  - apply narrow_accepts with (v := v). rewrite Hv. left. reflexivity.
  - exists v. exact Hv.
Qed.

Ltac unfold_invariant :=
  unfold content_invariant, carries_call, exactly_one_call,
    has_function_call, has_tool_calls; simpl.

Ltac invariant_fails H :=
  destruct H as [Hiff Hone];
  first [ discriminate (Hone eq_refl)
        | discriminate (proj1 Hiff eq_refl)
        | discriminate (proj2 Hiff eq_refl) ].

Ltac invariant_holds :=
  split; [ split; intros; congruence | intros; congruence ].

(** C5, with the call fields the options may bring. A message built by
    [Msg.system], [Msg.user], [Msg.assistant] or [Msg.funcResult] always
    satisfies the invariant of the data model: its [content] is null if and
    only if it carries [function_call] or [tool_calls], and a message that
    carries a call has exactly one of the two. A message built by
    [Msg.funcCall], [Msg.toolCall] or [Msg.toolResult] satisfies it exactly
    when the options bring no call field beside the helper's own: no
    [tool_calls] for [funcCall], no [function_call] for [toolCall], neither
    for [toolResult]. So it does when the options are left out or have the
    declared [name] key only. *)
Theorem constructed_content_invariant :
  (forall s o, content_invariant (system s o))
  /\ (forall s o, content_invariant (user s o))
  /\ (forall s o, content_invariant (assistant s o))
  /\ (forall j n, content_invariant (Msg.funcResult stringifyForModel j n))
  /\ (forall fc o,
        content_invariant (Msg.funcCall fc o)
        <-> Opts.tool_calls (Msg.spread_opts o) = None)
  /\ (forall tcs o,
        content_invariant (Msg.toolCall tcs o)
        <-> Opts.function_call (Msg.spread_opts o) = None)
  /\ (forall j id o,
        content_invariant (Msg.toolResult stringifyForModel j id o)
        <-> Opts.function_call (Msg.spread_opts o) = None
            /\ Opts.tool_calls (Msg.spread_opts o) = None)
  /\ (forall fc tcs j id o,
        o = None \/ (exists n, o = Some (Opts.named n)) ->
        content_invariant (Msg.funcCall fc o)
        /\ content_invariant (Msg.toolCall tcs o)
        /\ content_invariant (Msg.toolResult stringifyForModel j id o)).
Proof.
  split; [ intros s o; unfold_invariant; invariant_holds | ].
  split; [ intros s o; unfold_invariant; invariant_holds | ].
  split; [ intros s o; unfold_invariant; invariant_holds | ].
  split; [ intros j n; unfold_invariant; invariant_holds | ].
  split; [ | split; [ | split ] ].
  - intros fc o. destruct o as [[n r c f [tc | ] id] | ]; unfold_invariant;
      (split; [ intros H; first [ reflexivity | invariant_fails H ]
              | intros H; first [ discriminate H | invariant_holds ] ]).
  - intros tcs o. destruct o as [[n r c [f | ] tc id] | ]; unfold_invariant;
      (split; [ intros H; first [ reflexivity | invariant_fails H ]
              | intros H; first [ discriminate H | invariant_holds ] ]).
  - intros j id o.
    destruct o as [[n r c [f | ] [tc | ] i] | ]; unfold_invariant;
      (split; [ intros H; first [ split; reflexivity | invariant_fails H ]
              | intros [H1 H2];
                first [ discriminate H1 | discriminate H2
                      | invariant_holds ] ]).
  - intros fc tcs j id o [-> | [n ->]]; unfold_invariant;
      (split; [ invariant_holds | split; invariant_holds ]).
Qed.

(** C6. [Msg.system], [Msg.user] and [Msg.assistant] clean the content by
    default, that is without options or with options that leave
    [cleanContent] out, and with [cleanContent: true]; with
    [cleanContent: false] the content of the message is the input string
    itself, character for character. *)
Theorem text_helpers_cleanContent (s : string) :
  (content (system s None) = Some (cleanStringForModel s)
   /\ content (user s None) = Some (cleanStringForModel s)
   /\ content (assistant s None) = Some (cleanStringForModel s))
  /\ (forall o,
      TextOpts.cleanContent o = None ->
      content (system s (Some o)) = Some (cleanStringForModel s)
      /\ content (user s (Some o)) = Some (cleanStringForModel s)
      /\ content (assistant s (Some o)) = Some (cleanStringForModel s))
  /\ (forall o,
      TextOpts.cleanContent o = Some true ->
      content (system s (Some o)) = Some (cleanStringForModel s)
      /\ content (user s (Some o)) = Some (cleanStringForModel s)
      /\ content (assistant s (Some o)) = Some (cleanStringForModel s))
  /\ (forall o,
      TextOpts.cleanContent o = Some false ->
      content (system s (Some o)) = Some s
      /\ content (user s (Some o)) = Some s
      /\ content (assistant s (Some o)) = Some s).
Proof.
  split; [ | split; [ | split ] ].
  - repeat split.
  - intros o Ho. simpl. unfold Msg.text_cleanContent. rewrite Ho.
    repeat split.
  - intros o Ho. simpl. unfold Msg.text_cleanContent. rewrite Ho.
    repeat split.
  - intros o Ho. simpl. unfold Msg.text_cleanContent. rewrite Ho.
    repeat split.
Qed.

(** C8. On a response with non-null content [c], [narrowResponseMessage]
    returns [Msg.assistant c] built without options, so with the default
    cleaning: the content of the result is [cleanStringForModel c], not
    [c] itself, and it differs from the content of the response whenever
    cleaning changes [c]. *)
Theorem narrowResponseMessage_cleans_content (msg : Msg) (c : string) :
  content msg = Some c ->
  exists r,
    completion (narrowResponseMessage msg) = Return r
    /\ r = assistant c None
    /\ content r = Some (cleanStringForModel c)
    /\ (cleanStringForModel c <> c -> content r <> content msg).
Proof.
  intros Hc. exists (assistant c None).
  unfold Msg.narrowResponseMessage. rewrite Hc.
  destruct (tool_calls msg), (function_call msg); simpl;
    (repeat split; intros Hneq Heq; apply Hneq; congruence).
Qed.

(** C9. On a response with null content, the call payload goes through
    unchanged: the ToolCall result has the [tool_calls] of the response,
    and, when [tool_calls] is missing, the FuncCall result has its
    [function_call]. In both cases the result has no [name], whatever the
    [name] of the response was. *)
Theorem narrowResponseMessage_keeps_call_payload (msg : Msg) :
  content msg = None ->
  (forall tcs,
      tool_calls msg = Some tcs ->
      exists r,
        completion (narrowResponseMessage msg) = Return r
        /\ Msg.isToolCall r = true
        /\ tool_calls r = tool_calls msg
        /\ name r = None)
  /\ (forall fc,
      tool_calls msg = None ->
      function_call msg = Some fc ->
      exists r,
        completion (narrowResponseMessage msg) = Return r
        /\ Msg.isFuncCall r = true
        /\ function_call r = function_call msg
        /\ name r = None).
Proof.
  intros Hc. unfold Msg.narrowResponseMessage. rewrite Hc. split.
  - intros tcs Ht. rewrite Ht. eexists. repeat split.
  - intros fc Ht Hf. rewrite Ht, Hf. eexists. repeat split.
Qed.

(** C10. A tool message with non-null content whose [tool_call_id] is the
    empty string is rejected by [isToolResult], which tests truthiness,
    and [narrow] throws on it; a function message with non-null content
    and no [name] is rejected by [isFuncResult], and [narrow] throws on it
    too. *)
Theorem narrow_rejects_empty_id_and_missing_name (m : Msg) (c : string) :
  content m = Some c ->
  (role m = Role.tool -> tool_call_id m = Some "" ->
   Msg.isToolResult m = false
   /\ Msg.narrow m = Throw (Errors.new Errors.Error "Invalid message type"))
  /\ (role m = Role.function -> name m = None ->
   Msg.isFuncResult m = false
   /\ Msg.narrow m = Throw (Errors.new Errors.Error "Invalid message type")).
Proof.
  intros Hc. unfold Msg.narrow, Msg.isSystem, Msg.isUser, Msg.isAssistant,
    Msg.isFuncCall, Msg.isFuncResult, Msg.isToolCall, Msg.isToolResult.
  split.
  - intros Hr Hid. rewrite Hr, Hid. split; reflexivity.
  - intros Hr Hn. rewrite Hr, Hn. split; reflexivity.
Qed.

End MsgFacts.

(** ** Where the presence-only reading fails *)

(** The three fields the invalid-message branch looks at are all missing
    from [bare Role.assistant None]; the call throws, and what it throws is
    the generic [Error], not an error of a dedicated class. *)
Lemma narrowResponseMessage_throws_generic_Error :
  (content (bare Role.assistant None) = None
   /\ function_call (bare Role.assistant None) = None
   /\ tool_calls (bare Role.assistant None) = None)
  /\ exists e,
      completion
        (Msg.narrowResponseMessage trim_leading (bare Role.assistant None))
      = Throw e
      /\ ~ dedicated_fatal_error e.
Proof.
  split; [ repeat split | ].
  eexists. split; [ reflexivity | ].
  intros [Hclass _]. apply Hclass. reflexivity.
Qed.

(** A tool message with text and an empty [tool_call_id] has every field
    the presence-only well-formedness asks for, and satisfies the invariant
    of the data model, yet no guard accepts it. *)
Lemma empty_tool_call_id_matches_no_guard :
  well_formed tool_result_empty_id
  /\ content_invariant tool_result_empty_id
  /\ variants_of tool_result_empty_id = []
  /\ ~ (exists v, variants_of tool_result_empty_id = [v]).
Proof.
  split; [ | split; [ | split ] ].
  - split; simpl.
    + split; intros H; discriminate H.
    + intros H; discriminate H.
    + intros _ H; discriminate H.
  - split; [ split | ]; intros H; discriminate H.
  - reflexivity.
  - intros [v H]. discriminate H.
Qed.

(** On the same message [narrow] throws. *)
Lemma narrow_throws_on_empty_tool_call_id :
  well_formed tool_result_empty_id
  /\ content_invariant tool_result_empty_id
  /\ Msg.narrow tool_result_empty_id =
       Throw (Errors.new Errors.Error "Invalid message type")
  /\ (forall r, Msg.narrow tool_result_empty_id <> Return r).
Proof.
  split; [ | split; [ | split ] ].
  - split; simpl.
    + split; intros H; discriminate H.
    + intros H; discriminate H.
    + intros _ H; discriminate H.
  - split; [ split | ]; intros H; discriminate H.
  - reflexivity.
  - intros r H. discriminate H.
Qed.

(** [Msg.funcCall] spreads its options before it sets [function_call]:
    options that bring [tool_calls] give a message with null content and
    both call fields, which breaks the invariant of the data model. *)
Lemma funcCall_with_tool_calls_breaks_invariant :
  Constructed trim_leading (fun s : string => s)
    (Msg.funcCall get_weather (Some opts_with_tool_calls))
  /\ content (Msg.funcCall get_weather (Some opts_with_tool_calls)) = None
  /\ function_call (Msg.funcCall get_weather (Some opts_with_tool_calls))
     = Some get_weather
  /\ tool_calls (Msg.funcCall get_weather (Some opts_with_tool_calls))
     = Some [call_1]
  /\ ~ content_invariant
         (Msg.funcCall get_weather (Some opts_with_tool_calls)).
Proof.
  split; [ apply built_funcCall | ].
  split; [ reflexivity | ].
  split; [ reflexivity | ].
  split; [ reflexivity | ].
  intros [_ Hone]. discriminate (Hone eq_refl).
Qed.

(** Read to the letter, "null if and only if exactly one call field" lets an
    assistant message with text carry both call fields; three guards accept
    such a message. The invariant of the data model excludes it. *)
Lemma both_calls_with_text_matches_three_guards :
  well_formed assistant_with_both_calls
  /\ variants_of assistant_with_both_calls = [Assistant; FuncCall; ToolCall]
  /\ ~ content_invariant assistant_with_both_calls.
Proof.
  split; [ | split ].
  - split; simpl.
    + split; intros H; discriminate H.
    + intros H; discriminate H.
    + intros H; discriminate H.
  - reflexivity.
  - intros [Hiff _]. discriminate (proj2 Hiff eq_refl).
Qed.

(** ** The theorems at work on sample messages *)

Lemma narrowResponseMessage_first_match_witness :
  (Msg.narrowResponseMessage trim_leading response_with_both_calls
   = quiet (Return (Msg.toolCall [call_1] None))
   /\ variants_of (Msg.toolCall [call_1] None) = [ToolCall])
  /\ (Msg.narrowResponseMessage trim_leading response_with_function_call
      = quiet (Return (Msg.funcCall get_weather None))
      /\ variants_of (Msg.funcCall get_weather None) = [FuncCall])
  /\ (Msg.narrowResponseMessage trim_leading (bare Role.assistant (Some " ok"))
      = quiet (Return (Msg.assistant trim_leading " ok" None))
      /\ variants_of (Msg.assistant trim_leading " ok" None) = [Assistant]).
Proof.
  split; [ | split ].
  - apply (proj1 (narrowResponseMessage_first_match
                    trim_leading response_with_both_calls));
      reflexivity.
  - apply (proj1 (proj2 (narrowResponseMessage_first_match
                           trim_leading response_with_function_call)));
      reflexivity.
  - apply (proj2 (proj2 (narrowResponseMessage_first_match
                           trim_leading (bare Role.assistant (Some " ok")))));
      reflexivity.
Defined.

Lemma narrowResponseMessage_invalid_witness :
  Msg.narrowResponseMessage trim_leading (bare Role.assistant None) =
    {| console := [console_log "Invalid message" (bare Role.assistant None)];
       completion := Throw (Errors.new Errors.Error "Invalid message") |}.
Proof.
  apply (@narrowResponseMessage_invalid
           trim_leading (bare Role.assistant None));
    reflexivity.
Defined.

Lemma guards_mutually_exclusive_witness :
  exists v, variants_of response_with_function_call = [v]
            /\ is_variant v response_with_function_call = true
            /\ forall w,
                is_variant w response_with_function_call = true -> w = v.
Proof.
  apply (@guards_mutually_exclusive response_with_function_call).
  apply well_formed_nonempty_idb_spec. reflexivity.
Defined.

Lemma narrow_total_witness :
  Msg.narrow (Msg.toolResult (fun s : string => s) "72F" "call_1" None)
  = Return (Msg.toolResult (fun s : string => s) "72F" "call_1" None)
  /\ exists v,
      variants_of (Msg.toolResult (fun s : string => s) "72F" "call_1" None)
      = [v].
Proof.
  apply (@narrow_total
           (Msg.toolResult (fun s : string => s) "72F" "call_1" None)).
  apply well_formed_nonempty_idb_spec. reflexivity.
Defined.

Lemma constructed_content_invariant_witness :
  content_invariant
    (Msg.funcCall get_weather (Some (Opts.named (Some "bot"))))
  /\ content_invariant
       (Msg.toolCall [call_1] (Some (Opts.named (Some "bot"))))
  /\ content_invariant
       (Msg.toolResult (fun s : string => s) "72F" "call_1"
          (Some (Opts.named (Some "bot")))).
Proof.
  apply (proj2 (proj2 (proj2 (proj2 (proj2 (proj2 (proj2
           (@constructed_content_invariant
              trim_leading string (fun s : string => s))))))))).
  right. exists (Some "bot"). reflexivity.
Defined.

Lemma text_helpers_cleanContent_witness :
  content (Msg.system trim_leading "  { }"
             (Some {| TextOpts.name := None;
                      TextOpts.cleanContent := Some false |}))
  = Some "  { }"
  /\ content (Msg.user trim_leading "  { }"
                (Some {| TextOpts.name := None;
                         TextOpts.cleanContent := Some false |}))
     = Some "  { }"
  /\ content (Msg.assistant trim_leading "  { }"
                (Some {| TextOpts.name := None;
                         TextOpts.cleanContent := Some false |}))
     = Some "  { }".
Proof.
  apply (proj2 (proj2 (proj2
           (text_helpers_cleanContent trim_leading "  { }")))).
  reflexivity.
Defined.

Lemma narrowResponseMessage_cleans_content_witness :
  exists r,
    completion
      (Msg.narrowResponseMessage trim_leading
         (bare Role.assistant (Some "  hi")))
    = Return r
    /\ r = Msg.assistant trim_leading "  hi" None
    /\ content r = Some (trim_leading "  hi")
    /\ (trim_leading "  hi" <> "  hi" ->
        content r <> content (bare Role.assistant (Some "  hi"))).
Proof.
  apply (@narrowResponseMessage_cleans_content
           trim_leading (bare Role.assistant (Some "  hi")) "  hi").
  reflexivity.
Defined.

Lemma narrowResponseMessage_keeps_call_payload_witness :
  (exists r,
      completion
        (Msg.narrowResponseMessage trim_leading response_with_both_calls)
      = Return r
      /\ Msg.isToolCall r = true
      /\ tool_calls r = tool_calls response_with_both_calls
      /\ name r = None)
  /\ (exists r,
      completion
        (Msg.narrowResponseMessage trim_leading response_with_function_call)
      = Return r
      /\ Msg.isFuncCall r = true
      /\ function_call r = function_call response_with_function_call
      /\ name r = None).
Proof.
  split.
  - apply (proj1 (@narrowResponseMessage_keeps_call_payload
                    trim_leading response_with_both_calls eq_refl)
             [call_1]).
    reflexivity.
  - apply (proj2 (@narrowResponseMessage_keeps_call_payload
                    trim_leading response_with_function_call eq_refl)
             get_weather);
      reflexivity.
Defined.

Lemma narrow_rejects_empty_id_and_missing_name_witness :
  (Msg.isToolResult tool_result_empty_id = false
   /\ Msg.narrow tool_result_empty_id
      = Throw (Errors.new Errors.Error "Invalid message type"))
  /\ (Msg.isFuncResult (bare Role.function (Some "72F")) = false
      /\ Msg.narrow (bare Role.function (Some "72F"))
         = Throw (Errors.new Errors.Error "Invalid message type")).
Proof.
  split.
  - apply (proj1 (@narrow_rejects_empty_id_and_missing_name
                    tool_result_empty_id "72F" eq_refl));
      reflexivity.
  - apply (proj2 (@narrow_rejects_empty_id_and_missing_name
                    (bare Role.function (Some "72F")) "72F" eq_refl));
      reflexivity.
Defined.

(** ** More on the error classes *)

Module ErrorsMore.
Import Errors.

Lemma subclass_trans c d f : subclass c d -> subclass d f -> subclass c f.
Proof.
  intros Hcd. induction Hcd as [c | c p d He Hs IH]; intros Hdf.
  - exact Hdf.
  - eapply subclass_step; [ exact He | apply IH; exact Hdf ].
Qed.

Lemma subclass_depth c d : subclass c d -> depth d <= depth c.
Proof.
  intros H. induction H as [c | c p d He Hs IH].
  - apply le_n.
  - rewrite (ErrorsFacts.depth_extends c He). apply le_S. exact IH.
Qed.

(** X11. The classes form a partial order under [extends] with [Error] on
    top, and [instanceof] follows it: an error is an instance of the class
    it was constructed with and of [Error], an instance of a class is an
    instance of every class above it, and two classes below each other are
    the same class. *)
Theorem instanceof_partial_order :
  (forall e, instanceof e (constructor e) = true
             /\ instanceof e Error = true)
  /\ (forall e c d,
        instanceof e c = true -> subclass c d -> instanceof e d = true)
  /\ (forall c d, subclass c d -> subclass d c -> c = d).
Proof.
  split; [ | split ].
  - intros [c msg]. destruct c; split; reflexivity.
  - intros e c d He Hcd. apply ErrorsFacts.instanceof_subclass.
    apply ErrorsFacts.instanceof_subclass in He.
    exact (subclass_trans He Hcd).
  - intros c d Hcd Hdc.
    pose proof (subclass_depth Hcd) as H1.
    pose proof (subclass_depth Hdc) as H2.
    inversion Hcd as [ | c' p d' He Hs ]; subst; [ reflexivity | ].
    pose proof (subclass_depth Hs) as H3.
    rewrite (ErrorsFacts.depth_extends c He) in H2. lia.
Qed.

Lemma instanceof_partial_order_witness :
  instanceof (new ParseError "bad JSON") Error = true.
Proof.
  apply (proj1 (proj2 instanceof_partial_order)
           (new ParseError "bad JSON") RetryableError Error).
  - reflexivity.
  - eapply subclass_step; [ reflexivity | apply subclass_refl ].
Defined.

(** X12. Retryable and timed out exclude each other: no error is an
    instance of both [RetryableError] and [TimeoutError]. Every error is of
    exactly one kind, and the kind is decided by the class it was
    constructed with: [RetryableError] and [ParseError] are retryable,
    [TimeoutError] is timed out, a plain [Error] is neither. *)
Theorem error_kinds_disjoint (e : JsError) :
  (instanceof e RetryableError && instanceof e TimeoutError = false)
  /\ (kind_of e = retryable <->
      constructor e = RetryableError \/ constructor e = ParseError)
  /\ (kind_of e = timed_out <-> constructor e = TimeoutError)
  /\ (kind_of e = generic <-> constructor e = Error).
Proof.
  destruct e as [c msg]. unfold kind_of.
  destruct c; simpl; repeat split;
    try (intros H; discriminate H);
    try (intros [H | H]; discriminate H);
    try (intros _; first [ left; reflexivity | right; reflexivity ]).
Qed.

End ErrorsMore.

(** ** More on narrowing *)

Lemma truthy_nonempty (s : string) : truthy s = true <-> s <> "".
Proof.
  unfold truthy. rewrite negb_true_iff. apply String.eqb_neq.
Qed.

Section NarrowingFacts.

Variable cleanStringForModel : string -> string.

Local Abbreviation narrowResponseMessage :=
  (Msg.narrowResponseMessage cleanStringForModel).

(** The three ways [narrowResponseMessage] returns. *)
Lemma narrowResponseMessage_returns (msg r : Msg) :
  completion (narrowResponseMessage msg) = Return r ->
  (exists tcs, tool_calls msg = Some tcs /\ content msg = None
               /\ r = Msg.toolCall tcs None)
  \/ (exists fc, function_call msg = Some fc /\ content msg = None
                 /\ tool_calls msg = None /\ r = Msg.funcCall fc None)
  \/ (exists c, content msg = Some c
                /\ r = Msg.assistant cleanStringForModel c None).
Proof.
  unfold Msg.narrowResponseMessage.
  destruct (content msg) as [c | ], (tool_calls msg) as [tcs | ],
    (function_call msg) as [fc | ]; simpl; intros H;
    try discriminate H; injection H as <-.
  all: first
    [ right; right; exists c; split; reflexivity
    | left; exists tcs; repeat split; reflexivity
    | right; left; exists fc; repeat split; reflexivity ].
Qed.

(** X1. [narrowResponseMessage] throws exactly on the messages with null
    content and neither call field, and returns on all others; it writes to
    the console exactly when it throws. *)
Theorem narrowResponseMessage_throws_iff (msg : Msg) :
  ((exists e, completion (narrowResponseMessage msg) = Throw e)
   <-> content msg = None /\ function_call msg = None
       /\ tool_calls msg = None)
  /\ ((exists r, completion (narrowResponseMessage msg) = Return r)
      <-> content msg <> None \/ function_call msg <> None
          \/ tool_calls msg <> None)
  /\ ((exists r, completion (narrowResponseMessage msg) = Return r)
      <-> console (narrowResponseMessage msg) = []).
Proof.
  unfold Msg.narrowResponseMessage.
  destruct (content msg) as [c | ], (tool_calls msg) as [tcs | ],
    (function_call msg) as [fc | ]; simpl.
  all: split; [ | split ]; split.
  all: try (intros [x H]; discriminate H).
  all: try (intros [H1 [H2 H3]]; discriminate).
  all: try (intros _; eexists; reflexivity).
  all: try (intros H; discriminate H).
  all: try (intros _; repeat split; reflexivity).
  all: try (intros _; first [ left; discriminate
                            | right; left; discriminate
                            | right; right; discriminate ]).
  all: try (intros [H | [H | H]]; exfalso; apply H; reflexivity).
Qed.

(** X2. Whatever the role, the name and the [tool_call_id] of the response,
    a message that [narrowResponseMessage] returns has role [assistant], no
    [name] and no [tool_call_id], at most one call field, and satisfies the
    invariant of the data model. *)
Theorem narrowResponseMessage_result_shape (msg r : Msg) :
  completion (narrowResponseMessage msg) = Return r ->
  role r = Role.assistant
  /\ name r = None
  /\ tool_call_id r = None
  /\ (function_call r = None \/ tool_calls r = None)
  /\ content_invariant r.
Proof.
  intros H. apply narrowResponseMessage_returns in H.
  destruct H as [[tcs (_ & _ & ->)] | [[fc (_ & _ & _ & ->)] | [c (_ & ->)]]];
    unfold content_invariant, carries_call, exactly_one_call,
      has_function_call, has_tool_calls; simpl.
  all: repeat split;
    first [ left; reflexivity | right; reflexivity | discriminate ].
Qed.

(** X3. [narrowResponseMessage] reads [content], [tool_calls] and
    [function_call] only: two responses that agree on the three end the same
    way, whatever their roles, names and [tool_call_id]s. *)
Theorem narrowResponseMessage_reads_three_fields (msg1 msg2 : Msg) :
  content msg1 = content msg2 ->
  tool_calls msg1 = tool_calls msg2 ->
  function_call msg1 = function_call msg2 ->
  completion (narrowResponseMessage msg1)
  = completion (narrowResponseMessage msg2).
Proof.
  intros Hc Ht Hf. unfold Msg.narrowResponseMessage.
  rewrite Hc, Ht, Hf.
  destruct (content msg2), (tool_calls msg2), (function_call msg2);
    reflexivity.
Qed.

(** X4. [narrow] accepts every message [narrowResponseMessage] returns: it
    hands the message back unchanged, and exactly one guard accepts it, that
    of ToolCall, FuncCall or Assistant. *)
Theorem narrow_accepts_narrowed_response (msg r : Msg) :
  completion (narrowResponseMessage msg) = Return r ->
  well_formed_nonempty_id r
  /\ Msg.narrow r = Return r
  /\ (variants_of r = [ToolCall] \/ variants_of r = [FuncCall]
      \/ variants_of r = [Assistant]).
Proof.
  intros H. apply narrowResponseMessage_returns in H.
  destruct H as [[tcs (_ & _ & ->)] | [[fc (_ & _ & _ & ->)] | [c (_ & ->)]]].
  - split; [ apply well_formed_nonempty_idb_spec; reflexivity | ].
    split; [ reflexivity | left; reflexivity ].
  - split; [ apply well_formed_nonempty_idb_spec; reflexivity | ].
    split; [ reflexivity | right; left; reflexivity ].
  - split; [ apply well_formed_nonempty_idb_spec; reflexivity | ].
    split; [ reflexivity | right; right; reflexivity ].
Qed.

(** X5. Narrowing a second time. Run on a call message it returned,
    [narrowResponseMessage] returns that message again and stays quiet. Run
    on an Assistant message it returned, it cleans the text once more: what
    comes back is [Msg.assistant] of the cleaned text, which is the same
    message exactly when cleaning leaves the cleaned text as it is. *)
Theorem narrowResponseMessage_again (msg r : Msg) :
  completion (narrowResponseMessage msg) = Return r ->
  (content r = None -> narrowResponseMessage r = quiet (Return r))
  /\ (forall c,
        content r = Some c ->
        narrowResponseMessage r
        = quiet (Return (Msg.assistant cleanStringForModel c None))
        /\ (narrowResponseMessage r = quiet (Return r)
            <-> cleanStringForModel c = c)).
Proof.
  intros H. apply narrowResponseMessage_returns in H.
  destruct H as [[tcs (_ & _ & ->)] | [[fc (_ & _ & _ & ->)] | [c (_ & ->)]]].
  - split; [ reflexivity | intros c Hc; discriminate Hc ].
  - split; [ reflexivity | intros c Hc; discriminate Hc ].
  - split; [ intros Hc; discriminate Hc | ].
    intros c' Hc. simpl in Hc. injection Hc as <-.
    split; [ reflexivity | ].
    unfold Msg.narrowResponseMessage, Msg.assistant, quiet; simpl. split.
    + intros Heq. congruence.
    + intros Heq. rewrite Heq. reflexivity.
Qed.

End NarrowingFacts.

(** ** More on the guards and the helpers *)

Section GuardsMore.

(** X6. [narrow] returns exactly on the messages of [narrow_domain]: every
    system or user message; an assistant message with content or a call
    field; a function message with a [name]; a tool message with a
    non-empty [tool_call_id]. What it returns is its argument. On every
    other message it throws [Error('Invalid message type')]. *)
Theorem narrow_returns_iff (m : Msg) :
  (Msg.narrow m = Return m <-> narrow_domain m)
  /\ (Msg.narrow m = Throw (Errors.new Errors.Error "Invalid message type")
      <-> ~ narrow_domain m)
  /\ (forall r, Msg.narrow m = Return r -> r = m).
Proof.
  assert (Hdom : narrow_domain m
                 <-> existsb (fun v => is_variant v m) all_variants = true).
  { destruct m as [c r fc tc id n]. unfold narrow_domain.
    unfold is_variant, all_variants, existsb, Msg.isSystem, Msg.isUser,
      Msg.isAssistant, Msg.isFuncCall, Msg.isFuncResult, Msg.isToolCall,
      Msg.isToolResult. simpl.
    destruct r; simpl.
    - tauto.
    - tauto.
    - destruct c, fc, tc; simpl; split; intros H;
        first [ reflexivity
              | left; discriminate
              | right; left; discriminate
              | right; right; discriminate
              | discriminate H
              | destruct H as [H | [H | H]]; exfalso; apply H; reflexivity ].
    - destruct n; simpl; split; intros H;
        first [ reflexivity | discriminate | discriminate H
              | exfalso; apply H; reflexivity ].
    - destruct id as [s | ]; simpl.
      + rewrite orb_false_r. rewrite truthy_nonempty. split.
        * intros [s' [Hs Hne]]. injection Hs as <-. exact Hne.
        * intros Hne. exists s. split; [ reflexivity | exact Hne ].
      + split; [ intros [s' [Hs _]]; discriminate Hs
               | intros H; discriminate H ]. }
  rewrite narrow_by_guards.
  destruct (existsb (fun v => is_variant v m) all_variants) eqn:He.
  - split; [ | split ].
    + split; [ intros _; apply Hdom; reflexivity | reflexivity ].
    + split; [ intros H; discriminate H
             | intros H; exfalso; apply H, Hdom; reflexivity ].
    + intros r H. injection H as <-. reflexivity.
  - split; [ | split ].
    + split; [ intros H; discriminate H
             | intros H; apply Hdom in H; discriminate H ].
    + split; [ intros _ H; apply Hdom in H; discriminate H | reflexivity ].
    + intros r H. discriminate H.
Qed.

(** X7. The guards overlap on assistant messages only. On an assistant
    message the number of guards that accept it is the number of fields set
    among [content], [function_call] and [tool_calls] (none to three); on a
    message of any other role at most one guard accepts. *)
Theorem guards_overlap_count (m : Msg) :
  (role m = Role.assistant -> length (variants_of m) = payload_count m)
  /\ (role m <> Role.assistant -> length (variants_of m) <= 1).
Proof.
  destruct m as [c r fc tc id n].
  unfold payload_count, has_function_call, has_tool_calls, variants_of,
    is_variant, all_variants, Msg.isSystem, Msg.isUser, Msg.isAssistant,
    Msg.isFuncCall, Msg.isFuncResult, Msg.isToolCall, Msg.isToolResult.
  simpl. split.
  - intros ->. destruct c, fc, tc; reflexivity.
  - intros Hr. destruct r; simpl.
    + apply le_n.
    + apply le_n.
    + exfalso. apply Hr. reflexivity.
    + destruct (not_nullish n); simpl; auto.
    + destruct (truthy_opt id); simpl; auto.
Qed.

Variable cleanStringForModel : string -> string.
Variable Jsonifiable : Type.
Variable stringifyForModel : Jsonifiable -> string.


(** X9. A text helper gives its message a [name] exactly when the options
    carry a non-empty one: an empty name is left out. The call helpers and
    [Msg.toolResult] copy the name of the options as it is, the empty
    string included. *)
Theorem helpers_name (s : string) (o : option TextOpts.t) (n : string) :
  (name (Msg.system cleanStringForModel s o) = Some n
   <-> Msg.text_name o = Some n /\ n <> "")
  /\ (name (Msg.user cleanStringForModel s o) = Some n
      <-> Msg.text_name o = Some n /\ n <> "")
  /\ (name (Msg.assistant cleanStringForModel s o) = Some n
      <-> Msg.text_name o = Some n /\ n <> "")
  /\ (forall fc tcs j id (opts : Opts.t),
        name (Msg.funcCall fc (Some opts)) = Opts.name opts
        /\ name (Msg.toolCall tcs (Some opts)) = Opts.name opts
        /\ name (Msg.toolResult stringifyForModel j id (Some opts))
           = Opts.name opts).
Proof.
  assert (H : Msg.spread_truthy_name (Msg.text_name o) = Some n
              <-> Msg.text_name o = Some n /\ n <> "").
  { unfold Msg.spread_truthy_name, truthy_opt.
    destruct (Msg.text_name o) as [k | ].
    - destruct (truthy k) eqn:Hk.
      + split.
        * intros Hn. injection Hn as <-.
          split; [ reflexivity | apply truthy_nonempty; exact Hk ].
        * intros [Hn _]. exact Hn.
      + split.
        * intros Hn. discriminate Hn.
        * intros [Hn Hne]. injection Hn as <-.
          apply truthy_nonempty in Hne. congruence.
    - split; [ intros Hn; discriminate Hn | intros [Hn _]; discriminate Hn ]. }
  split; [ exact H | split; [ exact H | split; [ exact H | ] ] ].
  intros fc tcs j id opts. repeat split.
Qed.

End GuardsMore.

(** ** The errors of narrowing *)

Section NarrowingErrors.

Variable cleanStringForModel : string -> string.

(** X13. The errors of narrowing are generic: what [narrow] and
    [narrowResponseMessage] throw is neither a [RetryableError] nor a
    [TimeoutError], so a handler that retries on [RetryableError] never
    retries them. The two are told apart by their text. *)
Theorem narrowing_errors_are_generic (m : Msg) (e : Errors.JsError) :
  (Msg.narrow m = Throw e ->
   kind_of e = generic
   /\ Errors.instanceof e Errors.RetryableError = false
   /\ Errors.message e = "Invalid message type")
  /\ (completion (Msg.narrowResponseMessage cleanStringForModel m) = Throw e ->
      kind_of e = generic
      /\ Errors.instanceof e Errors.RetryableError = false
      /\ Errors.message e = "Invalid message").
Proof.
  split.
  - rewrite narrow_by_guards.
    destruct (existsb (fun v => is_variant v m) all_variants);
      intros H; [ discriminate H | ].
    injection H as <-. repeat split.
  - unfold Msg.narrowResponseMessage.
    destruct (content m), (tool_calls m), (function_call m); simpl;
      intros H; try discriminate H.
    injection H as <-. repeat split.
Qed.

End NarrowingErrors.

(** ** The Exa client *)

Section ExaClientFacts.

Variable number : Type.
Variable KyInstance : Type.
Variable defaultKy : KyInstance.
Variable extend : KyInstance -> Ky.Options -> KyInstance.
Variable getEnv : string -> option string.
Variable assert : JsValue -> string -> Completion unit.

Local Abbreviation constructor :=
  (ExaClient.constructor defaultKy extend getEnv assert).
Local Abbreviation getContents :=
  (@ExaClient.getContents number KyInstance assert).

Lemma arg_apiKey_cases (args : option (ExaClient.Args.t KyInstance)) :
  ExaClient.arg_apiKey getEnv args =
    match ExaClient.given_apiKey args with
    | Some k => Some k
    | None => getEnv "EXA_API_KEY"
    end.
Proof. destruct args as [[[k | ] u y] | ]; reflexivity. Qed.

Lemma arg_apiBaseUrl_cases (args : option (ExaClient.Args.t KyInstance)) :
  ExaClient.arg_apiBaseUrl getEnv args =
    match ExaClient.given_apiBaseUrl args with
    | Some u => u
    | None =>
        match getEnv "EXA_API_BASE_URL" with
        | Some u => u
        | None => "https://api.exa.ai"
        end
    end.
Proof. destruct args as [[k [u | ] y] | ]; reflexivity. Qed.

Lemma arg_ky_cases (args : option (ExaClient.Args.t KyInstance)) :
  ExaClient.arg_ky defaultKy args =
    match ExaClient.given_ky args with
    | Some y => y
    | None => defaultKy
    end.
Proof. destruct args as [[k u [y | ]] | ]; reflexivity. Qed.

(** X15. A client that the constructor returns is configured from its
    argument, then the environment, then the default: [apiBaseUrl] is the
    one given, else the value of [EXA_API_BASE_URL] (an empty value
    included), else [https://api.exa.ai]; its [ky] is the given instance,
    else the default one, extended once with that URL as [prefixUrl] and
    the stored key as the [x-api-key] header. *)
Theorem constructor_configuration
    (args : option (ExaClient.Args.t KyInstance))
    (client : ExaClient.t KyInstance) :
  constructor args = Return client ->
  (forall u, ExaClient.given_apiBaseUrl args = Some u ->
             ExaClient.apiBaseUrl client = u)
  /\ (forall u, ExaClient.given_apiBaseUrl args = None ->
                getEnv "EXA_API_BASE_URL" = Some u ->
                ExaClient.apiBaseUrl client = u)
  /\ (ExaClient.given_apiBaseUrl args = None ->
      getEnv "EXA_API_BASE_URL" = None ->
      ExaClient.apiBaseUrl client = "https://api.exa.ai")
  /\ ExaClient.ky client =
       extend
         match ExaClient.given_ky args with
         | Some y => y
         | None => defaultKy
         end
         {| Ky.prefixUrl := ExaClient.apiBaseUrl client;
            Ky.headers := [("x-api-key", ExaClient.apiKey client)] |}.
Proof.
  unfold ExaClient.constructor.
  rewrite arg_apiBaseUrl_cases, arg_ky_cases.
  destruct (assert _ _) as [[] | e]; intros H; [ | discriminate H ].
  injection H as <-. simpl.
  split; [ | split; [ | split ] ].
  - intros u ->. reflexivity.
  - intros u -> ->. reflexivity.
  - intros -> ->. reflexivity.
  - reflexivity.
Qed.

(** What is asked of [assert]: it returns on a truthy value and throws on a
    falsy one. *)
Hypothesis assert_truthy :
  forall value message,
    truthy_value value = true -> assert value message = Return tt.
Hypothesis assert_falsy :
  forall value message,
    truthy_value value = false -> exists e, assert value message = Throw e.

Lemma assert_returns_iff (value : JsValue) (message : string) :
  (exists u, assert value message = Return u) <-> truthy_value value = true.
Proof.
  split.
  - intros [u Hu]. destruct (truthy_value value) eqn:Hv; [ reflexivity | ].
    destruct (assert_falsy value message Hv) as [e He]. congruence.
  - intros Hv. exists tt. apply assert_truthy. exact Hv.
Qed.

Lemma constructor_returns_iff
    (args : option (ExaClient.Args.t KyInstance)) :
  (exists client, constructor args = Return client)
  <-> truthy_opt (ExaClient.arg_apiKey getEnv args) = true.
Proof.
  unfold ExaClient.constructor.
  set (k := ExaClient.arg_apiKey getEnv args).
  assert (Hk : truthy_value (of_optional_string k) = truthy_opt k)
    by (destruct k; reflexivity).
  rewrite <- Hk, <- (assert_returns_iff _ ExaClient.missing_apiKey).
  destruct (assert _ _) as [[] | e].
  - split; intros _; eexists; reflexivity.
  - split; intros [x Hx]; discriminate Hx.
Qed.

(** X14. With an [assert] that returns on truthy values and throws on falsy
    ones, the constructor returns exactly when it has a non-empty API key:
    the [apiKey] given, or, when none is given, the value of [EXA_API_KEY].
    An empty [apiKey] given makes it throw even when the environment has a
    key. Every client it returns stores a non-empty key. *)
Theorem constructor_requires_apiKey
    (args : option (ExaClient.Args.t KyInstance)) :
  (forall k, ExaClient.given_apiKey args = Some k ->
     ((exists client, constructor args = Return client) <-> k <> ""))
  /\ (ExaClient.given_apiKey args = None ->
      ((exists client, constructor args = Return client)
       <-> exists k, getEnv "EXA_API_KEY" = Some k /\ k <> ""))
  /\ (forall client,
        constructor args = Return client ->
        exists k, ExaClient.apiKey client = Some k /\ k <> "").
Proof.
  pose proof (constructor_returns_iff args) as Hiff.
  rewrite arg_apiKey_cases in Hiff.
  split; [ | split ].
  - intros k Hk. rewrite Hk in Hiff. simpl in Hiff.
    rewrite Hiff. apply truthy_nonempty.
  - intros Hk. rewrite Hk in Hiff. rewrite Hiff.
    destruct (getEnv "EXA_API_KEY") as [k | ]; simpl.
    + rewrite truthy_nonempty. split.
      * intros Hne. exists k. split; [ reflexivity | exact Hne ].
      * intros [k' [Hk' Hne]]. injection Hk' as <-. exact Hne.
    + split; [ intros H; discriminate H
             | intros [k' [Hk' _]]; discriminate Hk' ].
  - intros client Hc.
    assert (Hex : exists c, constructor args = Return c)
      by (exists client; exact Hc).
    apply constructor_returns_iff in Hex.
    unfold ExaClient.constructor in Hc.
    destruct (assert _ _) as [[] | e]; [ | discriminate Hc ].
    injection Hc as <-. simpl.
    destruct (ExaClient.arg_apiKey getEnv args) as [k | ];
      [ | discriminate Hex ].
    exists k. split; [ reflexivity | apply truthy_nonempty; exact Hex ].
Qed.

(** X16. Every request of a constructed client goes out with the key: the
    instance that [search], [findSimilar] and [getContents] post on carries
    an [x-api-key] header with a non-empty key and the client's
    [apiBaseUrl] as [prefixUrl]; the three post to [search], [findSimilar]
    and [contents]. *)
Theorem requests_carry_apiKey
    (args : option (ExaClient.Args.t KyInstance))
    (client : ExaClient.t KyInstance) :
  constructor args = Return client ->
  exists base k,
    k <> ""
    /\ ExaClient.ky client =
         extend base
           {| Ky.prefixUrl := ExaClient.apiBaseUrl client;
              Ky.headers := [("x-api-key", Some k)] |}
    /\ (forall q : string + exa.RegularSearchOptions.t number,
          ExaClient.instance (ExaClient.search client q)
          = ExaClient.ky client
          /\ ExaClient.input (ExaClient.search client q) = "search")
    /\ (forall o : exa.FindSimilarOptions.t number,
          ExaClient.instance (ExaClient.findSimilar client o)
          = ExaClient.ky client
          /\ ExaClient.input (ExaClient.findSimilar client o)
             = "findSimilar")
    /\ (forall o post,
          getContents client o = Return post ->
          ExaClient.instance post = ExaClient.ky client
          /\ ExaClient.input post = "contents").
Proof.
  intros Hc.
  assert (Hex : exists c, constructor args = Return c)
    by (exists client; exact Hc).
  apply constructor_returns_iff in Hex.
  unfold ExaClient.constructor in Hc.
  destruct (assert _ _) as [[] | e] eqn:Ha; [ | discriminate Hc ].
  injection Hc as <-. simpl.
  destruct (ExaClient.arg_apiKey getEnv args) as [k | ];
    [ | discriminate Hex ].
  exists (ExaClient.arg_ky defaultKy args), k.
  split; [ apply truthy_nonempty; exact Hex | ].
  split; [ reflexivity | ].
  split; [ intros q; split; reflexivity | ].
  split; [ intros o; split; reflexivity | ].
  intros o post. unfold ExaClient.getContents.
  destruct (assert (js_number _) _) as [[] | e']; intros H;
    [ | discriminate H ].
  injection H as <-. split; reflexivity.
Qed.

(** X17. [getContents] never posts an empty list of ids: with an [assert]
    as above it throws exactly when [ids] is the empty array, and
    otherwise posts the given array unchanged, or the one-element array of
    the single id given, together with the other options as they came. *)
Theorem getContents_ids
    (this : ExaClient.t KyInstance)
    (args : exa.GetContentsOptions.t number) :
  ((exists e, getContents this args = Throw e)
   <-> exa.GetContentsOptions.ids args = exa.array [])
  /\ (forall post,
        getContents this args = Return post ->
        exists documentIDs,
          documentIDs <> []
          /\ ExaClient.json post
             = ExaClient.contents_json
                 (exa.GetContentsOptions.base args) documentIDs
          /\ (exa.GetContentsOptions.ids args = exa.array documentIDs
              \/ exists id,
                  exa.GetContentsOptions.ids args = exa.single id
                  /\ documentIDs = [id])).
Proof.
  unfold ExaClient.getContents.
  destruct args as [opts ids]; simpl.
  set (documentIDs := match ids with
                      | exa.single id => [id]
                      | exa.array ids0 => ids0
                      end).
  assert (Hlen : truthy_value (js_number (length documentIDs)) = true
                 <-> documentIDs <> []).
  { destruct documentIDs; simpl; split; congruence. }
  pose proof (assert_returns_iff (js_number (length documentIDs))
                "Must provide at least one document ID") as Hret.
  destruct (assert (js_number (length documentIDs)) _) as [[] | e].
  - assert (Hne : documentIDs <> []).
    { apply Hlen, Hret. exists tt. reflexivity. }
    split.
    + split; [ intros [e He]; discriminate He | ].
      intros ->. exfalso. apply Hne. reflexivity.
    + intros post H. injection H as <-. simpl.
      exists documentIDs. split; [ exact Hne | ]. split; [ reflexivity | ].
      subst documentIDs. destruct ids as [id | ids0].
      * right. exists id. split; reflexivity.
      * left. reflexivity.
  - assert (Hnil : documentIDs = []).
    { destruct documentIDs as [ | d ds ]; [ reflexivity | ].
      exfalso. assert (Hne : d :: ds <> []) by discriminate.
      apply Hlen, Hret in Hne. destruct Hne as [u Hu]. discriminate Hu. }
    split.
    + split; [ | intros _; exists e; reflexivity ].
      intros _. subst documentIDs.
      destruct ids as [id | ids0]; [ discriminate Hnil | ].
      rewrite Hnil. reflexivity.
    + intros post H. discriminate H.
Qed.

End ExaClientFacts.

(** ** The further theorems at work on sample data *)

Lemma sample_assert_truthy (value : JsValue) (message : string) :
  truthy_value value = true -> sample_assert value message = Return tt.
Proof. intros H. unfold sample_assert. rewrite H. reflexivity. Qed.

Lemma sample_assert_falsy (value : JsValue) (message : string) :
  truthy_value value = false ->
  exists e, sample_assert value message = Throw e.
Proof.
  intros H. unfold sample_assert. rewrite H. eexists. reflexivity.
Qed.

Lemma narrowResponseMessage_result_shape_witness :
  role (Msg.assistant trim_leading " hi" None) = Role.assistant
  /\ name (Msg.assistant trim_leading " hi" None) = None
  /\ tool_call_id (Msg.assistant trim_leading " hi" None) = None
  /\ (function_call (Msg.assistant trim_leading " hi" None) = None
      \/ tool_calls (Msg.assistant trim_leading " hi" None) = None)
  /\ content_invariant (Msg.assistant trim_leading " hi" None).
Proof.
  apply (@narrowResponseMessage_result_shape
           trim_leading (bare Role.user (Some " hi"))).
  reflexivity.
Defined.

Lemma narrowResponseMessage_reads_three_fields_witness :
  completion
    (Msg.narrowResponseMessage trim_leading (bare Role.user (Some "ok")))
  = completion
      (Msg.narrowResponseMessage trim_leading
         (bare Role.assistant (Some "ok"))).
Proof.
  apply narrowResponseMessage_reads_three_fields; reflexivity.
Defined.

Lemma narrow_accepts_narrowed_response_witness :
  well_formed_nonempty_id (Msg.funcCall get_weather None)
  /\ Msg.narrow (Msg.funcCall get_weather None)
     = Return (Msg.funcCall get_weather None)
  /\ (variants_of (Msg.funcCall get_weather None) = [ToolCall]
      \/ variants_of (Msg.funcCall get_weather None) = [FuncCall]
      \/ variants_of (Msg.funcCall get_weather None) = [Assistant]).
Proof.
  apply (@narrow_accepts_narrowed_response
           trim_leading response_with_function_call).
  reflexivity.
Defined.

Lemma narrowResponseMessage_again_witness :
  Msg.narrowResponseMessage drop_leading_space
    (Msg.assistant drop_leading_space "  hi" None)
  = quiet (Return (Msg.assistant drop_leading_space " hi" None))
  /\ (Msg.narrowResponseMessage drop_leading_space
        (Msg.assistant drop_leading_space "  hi" None)
      = quiet (Return (Msg.assistant drop_leading_space "  hi" None))
      <-> drop_leading_space " hi" = " hi").
Proof.
  apply (proj2 (@narrowResponseMessage_again
                  drop_leading_space (bare Role.assistant (Some "  hi"))
                  (Msg.assistant drop_leading_space "  hi" None) eq_refl)).
  reflexivity.
Defined.

Lemma narrow_returns_iff_witness :
  narrow_domain (Msg.toolCall [call_1] None).
Proof.
  apply (proj1 (proj1 (narrow_returns_iff (Msg.toolCall [call_1] None)))).
  reflexivity.
Defined.

Lemma guards_overlap_count_witness :
  length (variants_of assistant_with_both_calls)
  = payload_count assistant_with_both_calls.
Proof.
  apply (proj1 (guards_overlap_count assistant_with_both_calls)).
  reflexivity.
Defined.


Lemma narrowing_errors_are_generic_witness :
  kind_of (Errors.new Errors.Error "Invalid message type") = generic
  /\ Errors.instanceof (Errors.new Errors.Error "Invalid message type")
       Errors.RetryableError = false
  /\ Errors.message (Errors.new Errors.Error "Invalid message type")
     = "Invalid message type".
Proof.
  apply (proj1 (narrowing_errors_are_generic
                  trim_leading tool_result_empty_id
                  (Errors.new Errors.Error "Invalid message type"))).
  reflexivity.
Defined.

Lemma constructor_requires_apiKey_witness :
  exists k, ExaClient.apiKey sample_client = Some k /\ k <> "".
Proof.
  apply (proj2 (proj2
           (@constructor_requires_apiKey
              sample_ky [] sample_extend sample_getEnv sample_assert
              sample_assert_truthy sample_assert_falsy None))).
  reflexivity.
Defined.

Lemma constructor_configuration_witness :
  ExaClient.apiBaseUrl sample_client = "https://api.exa.ai".
Proof.
  apply (proj1 (proj2 (proj2
           (@constructor_configuration
              sample_ky [] sample_extend sample_getEnv sample_assert
              None sample_client eq_refl))));
    reflexivity.
Defined.

Lemma requests_carry_apiKey_witness :
  exists base k,
    k <> ""
    /\ ExaClient.ky sample_client =
         sample_extend base
           {| Ky.prefixUrl := ExaClient.apiBaseUrl sample_client;
              Ky.headers := [("x-api-key", Some k)] |}.
Proof.
  destruct (@requests_carry_apiKey
              nat sample_ky [] sample_extend sample_getEnv sample_assert
              sample_assert_truthy sample_assert_falsy None sample_client
              eq_refl)
    as [base [k [Hk [Hky _]]]].
  exists base, k. split; [ exact Hk | exact Hky ].
Defined.

Lemma getContents_ids_witness :
  exists documentIDs,
    documentIDs <> []
    /\ ExaClient.contents_json
         (exa.GetContentsOptions.base one_document) ["doc-1"]
       = ExaClient.contents_json
           (exa.GetContentsOptions.base one_document) documentIDs
    /\ (exa.GetContentsOptions.ids one_document = exa.array documentIDs
        \/ exists id,
            exa.GetContentsOptions.ids one_document = exa.single id
            /\ documentIDs = [id]).
Proof.
  apply (proj2 (@getContents_ids
                  nat sample_ky sample_assert
                  sample_assert_truthy sample_assert_falsy
                  sample_client one_document)
           {| ExaClient.instance := ExaClient.ky sample_client;
              ExaClient.input := "contents";
              ExaClient.json :=
                ExaClient.contents_json
                  (exa.GetContentsOptions.base one_document) ["doc-1"] |}).
  reflexivity.
Defined.
